(** * Nokogiri: the HTML4 SAX push parser binding

    A shallow embedding of [ext/nokogiri/html4_sax_push_parser.c]: the two
    methods the file registers on [Nokogiri::HTML4::SAX::PushParser],

    - [native_write(chunk, last_chunk)], which hands one chunk to libxml2's
      [htmlParseChunk] and turns its status into a Ruby exception, and
    - [initialize_native(xml_sax, filename, encoding)], which resolves the
      encoding name and creates the libxml2 push parser context.

    The C functions run against three pieces of state: libxml2's own memory
    (parser contexts and the global structured error handler), the DATA_PTR
    slots of Ruby's typed-data objects, and the control flow of Ruby
    exceptions.  They are embedded here as computations in a state and
    exception monad over a [World].  libxml2 is not part of the repository:
    it enters as an interface ([LibXml2]) over which every theorem is
    universally quantified.  [htmlParseChunk] is taken to be a call that
    returns its status to the caller; the module [Unwinding] embeds
    [native_write] once more for the call that a Ruby exception, raised in a
    SAX handler, leaves. *)

From Stdlib Require Import ZArith List String Bool Lia.
From Stdlib.Strings Require Import Byte.
Import ListNotations.
Local Open Scope Z_scope.

(** ** C integers *)

(** [(int)x] for a [long] x: the usual two's complement narrowing. *)
Definition int_of_long (x : Z) : Z := (x + 2 ^ 31) mod 2 ^ 32 - 2 ^ 31.

(** Pointers are addresses; [NULL] is address 0. *)
Definition NULL : Z := 0.

(** ** Ruby values *)

(** The typed-data kinds the binding unwraps. *)
Inductive data_type : Type :=
| xml_sax_parser_type
| xml_sax_push_parser_type.

Definition data_type_eqb (a b : data_type) : bool :=
  match a, b with
  | xml_sax_parser_type, xml_sax_parser_type => true
  | xml_sax_push_parser_type, xml_sax_push_parser_type => true
  | _, _ => false
  end.

(** A Ruby [VALUE].  Strings carry their bytes; a typed-data object is named
    by its identity, its DATA_PTR slot lives in the [World]; [RObject] stands
    for every object that is neither nil, a boolean, a String nor typed data
    (and has no [to_str]). *)
Inductive VALUE : Type :=
| Qnil
| Qtrue
| Qfalse
| RString (bytes : list byte)
| RTypedData (ty : data_type) (obj : nat)
| RObject (obj : nat).

Definition NIL_P (v : VALUE) : bool :=
  match v with Qnil => true | _ => false end.

Definition is_Qtrue (v : VALUE) : bool :=
  match v with Qtrue => true | _ => false end.

(** [RSTRING_LEN]: the byte length, a [long]. *)
Definition RSTRING_LEN (v : VALUE) : Z :=
  match v with RString s => Z.of_nat (List.length s) | _ => 0 end.

(** ** libxml2 data *)

(** The fields of [xmlError] that the exception wrapper copies. *)
Record xmlError : Type := mk_xmlError {
  code : Z;
  message : string;
  line : Z
}.

(** libxml2 constants used by the binding (parser.h, encoding.h). *)
Definition XML_PARSE_RECOVER : Z := 1.
Definition XML_CHAR_ENCODING_ERROR : Z := -1.
Definition XML_CHAR_ENCODING_NONE : Z := 0.

(** What libxml2 owns: the two globals behind [xmlSetStructuredErrorFunc]
    and the memory holding its parser contexts. *)
Record libxml_state (H : Type) : Type := mk_libxml_state {
  xmlStructuredError : Z;
  xmlStructuredErrorContext : Z;
  heap : H
}.
Arguments mk_libxml_state {H}.
Arguments xmlStructuredError {H}.
Arguments xmlStructuredErrorContext {H}.
Arguments heap {H}.

(** [xmlSetStructuredErrorFunc(ctx, handler)] assigns both globals. *)
Definition xmlSetStructuredErrorFunc {H} (ctx handler : Z)
    (st : libxml_state H) : libxml_state H :=
  mk_libxml_state handler ctx (heap st).

(** The libxml2 entry points the binding calls.  [htmlParseChunk] and
    [htmlCreatePushParserCtxt] may change anything libxml2 owns, the globals
    included; the two accessors read one context. *)
Class LibXml2 : Type := {
  heap_t : Type;
  htmlParseChunk :
    libxml_state heap_t -> Z -> option (list byte) -> Z -> Z ->
    libxml_state heap_t * Z;
  xmlCtxtGetOptions : heap_t -> Z -> Z;
  xmlCtxtGetLastError : heap_t -> Z -> option xmlError;
  xmlParseCharEncoding : list byte -> Z;
  htmlCreatePushParserCtxt :
    libxml_state heap_t -> Z -> Z -> option (list byte) -> Z ->
    option (list byte) -> Z -> libxml_state heap_t * Z;
  store_userData : heap_t -> Z -> Z -> heap_t;
  store__private : heap_t -> Z -> VALUE -> heap_t
}.

(** ** Exceptions and the call trace *)

Inductive exception : Type :=
| rb_eTypeError
| rb_eArgError (msg : string)
| rb_eRuntimeError (msg : string)
| XML_SyntaxError (e : option xmlError).

(** The calls that leave the binding, in the order they are made, each with
    its arguments and what came back.  The trace is an observation only: no
    definition reads it. *)
Inductive event : Type :=
| Ev_save_and_set (user_data handler : Z)
| Ev_htmlParseChunk (ctx : Z) (chunk : option (list byte))
    (size terminate : Z) (status : Z)
| Ev_restore (user_data handler : Z)
| Ev_htmlCreatePushParserCtxt (sax : Z) (filename : option (list byte))
    (enc : Z) (ctx : Z).

Inductive result (A : Type) : Type :=
| Return (a : A)
| Raise (e : exception).
Arguments Return {A}.
Arguments Raise {A}.

Section Binding.

Context {lib : LibXml2}.

Record World : Type := mk_World {
  xml : libxml_state heap_t;
  DATA_PTR : nat -> Z;
  trace : list event
}.

(** ** The monad: state passing, with Ruby's raise *)

Definition M (A : Type) : Type := World -> World * result A.

Definition ret {A} (a : A) : M A := fun w => (w, Return a).

Definition bind {A B} (c : M A) (k : A -> M B) : M B :=
  fun w =>
    match c w with
    | (w', Return a) => k a w'
    | (w', Raise e) => (w', Raise e)
    end.

Definition rb_raise {A} (e : exception) : M A := fun w => (w, Raise e).

Notation "x <- c ;; k" := (bind c (fun x => k))
  (at level 100, c at next level, right associativity).
Notation "c ;;; k" := (bind c (fun _ => k))
  (at level 100, right associativity).

(** ** Ruby's C API *)

(** [StringValuePtr]: the bytes of a String; a TypeError for what has no
    implicit conversion to String.  An object that converts through
    [to_str] is taken as the String it converts to; the Ruby code of the
    conversion is not modelled. *)
Definition StringValuePtr (v : VALUE) : M (list byte) :=
  match v with
  | RString s => ret s
  | _ => rb_raise rb_eTypeError
  end.

Definition has_nul (s : list byte) : bool :=
  existsb (fun b => Byte.eqb b x00) s.

(** [StringValueCStr]: as above, and an ArgumentError for a String with an
    embedded NUL. *)
Definition StringValueCStr (v : VALUE) : M (list byte) :=
  match v with
  | RString s =>
      if has_nul s then rb_raise (rb_eArgError "string contains null byte")
      else ret s
  | _ => rb_raise rb_eTypeError
  end.

(** [DATA_PTR(obj) = p].  The receiver of a method of the class is always
    a typed-data object; for anything else there is no slot to write. *)
Definition set_DATA_PTR (v : VALUE) (p : Z) : M unit :=
  fun w =>
    match v with
    | RTypedData _ o =>
        (mk_World (xml w)
           (fun o' => if Nat.eqb o' o then p else DATA_PTR w o') (trace w),
         Return tt)
    | _ => (w, Return tt)
    end.

(** ** Nokogiri helpers defined outside this file *)

(** Modelled from the spec: [noko_xml_sax_push_parser_unwrap] and
    [noko_xml_sax_parser_unwrap] are defined in xml_sax_push_parser.c and
    xml_sax_parser.c, not in this file.  Both are a [TypedData_Get_Struct]:
    the DATA_PTR of an object of the expected type, a TypeError otherwise. *)
Definition TypedData_Get_Struct (ty : data_type) (v : VALUE) : M Z :=
  fun w =>
    match v with
    | RTypedData ty' o =>
        if data_type_eqb ty' ty then (w, Return (DATA_PTR w o))
        else (w, Raise rb_eTypeError)
    | _ => (w, Raise rb_eTypeError)
    end.

Definition noko_xml_sax_push_parser_unwrap : VALUE -> M Z :=
  TypedData_Get_Struct xml_sax_push_parser_type.

Definition noko_xml_sax_parser_unwrap : VALUE -> M Z :=
  TypedData_Get_Struct xml_sax_parser_type.

(** The saved handler: [libxmlStructuredErrorHandlerState]. *)
Record libxmlStructuredErrorHandlerState : Type := mk_handler_state {
  user_data : Z;
  handler : Z
}.

(** Modelled from the spec: [noko__structured_error_func_save_and_set] and
    [noko__structured_error_func_restore] are defined in xml_syntax_error.c,
    not in this file.  The first saves the two globals and installs the
    given pair, the second installs the saved pair again. *)
Definition noko__structured_error_func_save_and_set (new_user_data new_handler : Z)
    : M libxmlStructuredErrorHandlerState :=
  fun w =>
    let saved := mk_handler_state (xmlStructuredErrorContext (xml w))
                                  (xmlStructuredError (xml w)) in
    (mk_World (xmlSetStructuredErrorFunc new_user_data new_handler (xml w))
       (DATA_PTR w) (trace w ++ [Ev_save_and_set new_user_data new_handler]),
     Return saved).

Definition noko__structured_error_func_restore
    (hs : libxmlStructuredErrorHandlerState) : M unit :=
  fun w =>
    (mk_World (xmlSetStructuredErrorFunc (user_data hs) (handler hs) (xml w))
       (DATA_PTR w) (trace w ++ [Ev_restore (user_data hs) (handler hs)]),
     Return tt).

(** Modelled from the spec: [noko__error_raise] is defined in
    xml_syntax_error.c.  It wraps the libxml2 error (possibly NULL) in a
    [Nokogiri::XML::SyntaxError] and raises it; it does not return. *)
Definition noko__error_raise {A} (e : option xmlError) : M A :=
  rb_raise (XML_SyntaxError e).

(** ** Calls into libxml2, lifted to the monad

    [call_htmlParseChunk] is the call that returns its status; the call that
    a Ruby exception leaves is in [Unwinding]. *)

Definition call_htmlParseChunk (ctx : Z) (chunk : option (list byte))
    (size terminate : Z) : M Z :=
  fun w =>
    let '(st, status) := htmlParseChunk (xml w) ctx chunk size terminate in
    (mk_World st (DATA_PTR w)
       (trace w ++ [Ev_htmlParseChunk ctx chunk size terminate status]),
     Return status).

Definition call_xmlCtxtGetOptions (ctx : Z) : M Z :=
  fun w => (w, Return (xmlCtxtGetOptions (heap (xml w)) ctx)).

Definition call_xmlCtxtGetLastError (ctx : Z) : M (option xmlError) :=
  fun w => (w, Return (xmlCtxtGetLastError (heap (xml w)) ctx)).

Definition call_htmlCreatePushParserCtxt (sax user_data : Z)
    (chunk : option (list byte)) (size : Z) (filename : option (list byte))
    (enc : Z) : M Z :=
  fun w =>
    let '(st, ctx) :=
      htmlCreatePushParserCtxt (xml w) sax user_data chunk size filename enc in
    (mk_World st (DATA_PTR w)
       (trace w ++ [Ev_htmlCreatePushParserCtxt sax filename enc ctx]),
     Return ctx).

(** [ctx->field = v] for the two fields the binding writes. *)
Definition update_heap (f : heap_t -> heap_t) : M unit :=
  fun w =>
    (mk_World (mk_libxml_state (xmlStructuredError (xml w))
                 (xmlStructuredErrorContext (xml w)) (f (heap (xml w))))
       (DATA_PTR w) (trace w),
     Return tt).

(** ** native_write(chunk, last_chunk)

    Lines 11 to 40.  [chunk] and [size] start as NULL and 0 and are assigned
    under the nil test; here the pair is bound once.  The test on line 33
    reads the options only when the status is not 0; the accessor is a pure
    read, so it is bound before the test. *)

Definition noko_html4_sax_push_parser__native_write
    (self _chunk _last_chunk : VALUE) : M VALUE :=
  ctx <- noko_xml_sax_push_parser_unwrap self ;;
  cs <- (if negb (NIL_P _chunk) then
           chunk <- StringValuePtr _chunk ;;
           ret (Some chunk, int_of_long (RSTRING_LEN _chunk))
         else ret (None, 0)) ;;
  handler_state <- noko__structured_error_func_save_and_set NULL NULL ;;
  status <- call_htmlParseChunk ctx (fst cs) (snd cs)
              (if is_Qtrue _last_chunk then 1 else 0) ;;
  noko__structured_error_func_restore handler_state ;;;
  options <- call_xmlCtxtGetOptions ctx ;;
  if negb (status =? 0) && (Z.land options XML_PARSE_RECOVER =? 0) then
    e <- call_xmlCtxtGetLastError ctx ;;
    noko__error_raise e
  else
    ret self.

(** ** initialize_native(xml_sax, filename, encoding)

    Lines 48 to 89. *)

Definition noko_html4_sax_push_parser__initialize_native
    (self _xml_sax _filename encoding : VALUE) : M VALUE :=
  sax <- noko_xml_sax_parser_unwrap _xml_sax ;;
  filename <- (if negb (NIL_P _filename) then
                 s <- StringValueCStr _filename ;; ret (Some s)
               else ret None) ;;
  enc <- (if negb (NIL_P encoding) then
            name <- StringValueCStr encoding ;;
            let enc := xmlParseCharEncoding name in
            if enc =? XML_CHAR_ENCODING_ERROR then
              rb_raise (rb_eArgError "Unsupported Encoding")
            else ret enc
          else ret XML_CHAR_ENCODING_NONE) ;;
  ctx <- call_htmlCreatePushParserCtxt sax NULL None 0 filename enc ;;
  if ctx =? NULL then
    rb_raise (rb_eRuntimeError "Could not create a parser context")
  else
    update_heap (fun h => store_userData h ctx ctx) ;;;
    update_heap (fun h => store__private h ctx _xml_sax) ;;;
    set_DATA_PTR self ctx ;;;
    ret self.

End Binding.

Arguments World : clear implicits.
Arguments M : clear implicits.

(** ** A reference parser

    A small, executable instance of the [LibXml2] interface, used to run the
    binding on concrete sessions.  It keeps what the binding can observe of
    libxml2's push parser: contexts addressed by pointer, an option word, an
    error number that stays set once an error was seen ([htmlParseChunk]
    returns [ctxt->errNo]), the size and NULL guards in front of the input,
    and the end-of-document step taken when [terminate] is set. *)
Module RefLib.

Definition XML_ERR_INTERNAL_ERROR : Z := 1.
Definition XML_ERR_NAME_REQUIRED : Z := 68.
Definition XML_ERR_TAG_NOT_FINISHED : Z := 77.
Definition XML_ERR_INVALID_ENCODING : Z := 81.

Record ctxt : Type := mk_ctxt {
  options : Z;
  errNo : Z;
  lastError : option xmlError;
  in_tag : bool;        (* the scanner is between a '<' and its '>' *)
  instate_eof : bool;   (* XML_PARSER_EOF was reached *)
  consumed : Z;         (* bytes scanned so far *)
  encoding : Z;
  sax : Z;
  userData : Z;
  _private : option VALUE
}.

(** Address p > 0 is the p-th context ever created. *)
Definition lookup (h : list ctxt) (p : Z) : option ctxt :=
  if p <=? 0 then None else nth_error h (Z.to_nat (p - 1)).

Fixpoint replace_nth (h : list ctxt) (n : nat) (c : ctxt) : list ctxt :=
  match h, n with
  | [], _ => []
  | _ :: t, O => c :: t
  | x :: t, S n' => x :: replace_nth t n' c
  end.

Definition update (h : list ctxt) (p : Z) (c : ctxt) : list ctxt :=
  if p <=? 0 then h else replace_nth h (Z.to_nat (p - 1)) c.

Definition report (c : ctxt) (err : Z) (msg : string) : ctxt :=
  mk_ctxt (options c) err (Some (mk_xmlError err msg (consumed c)))
    (in_tag c) (instate_eof c) (consumed c) (encoding c) (sax c)
    (userData c) (_private c).

Definition advance (c : ctxt) (tag : bool) : ctxt :=
  mk_ctxt (options c) (errNo c) (lastError c) tag (instate_eof c)
    (consumed c + 1) (encoding c) (sax c) (userData c) (_private c).

(** One byte of input: '<' opens a tag (an error inside a tag), '>' closes
    it, the bytes FE and FF cannot be decoded. *)
Definition scan (c : ctxt) (b : byte) : ctxt :=
  match b with
  | "<"%byte =>
      if in_tag c
      then advance (report c XML_ERR_NAME_REQUIRED "htmlParseStartTag: invalid element name") true
      else advance c true
  | ">"%byte => advance c false
  | xfe | xff =>
      advance (report c XML_ERR_INVALID_ENCODING "Input is not proper UTF-8, indicate encoding !") (in_tag c)
  | _ => advance c (in_tag c)
  end.

Definition finish (c : ctxt) : ctxt :=
  let c' := if in_tag c
            then report c XML_ERR_TAG_NOT_FINISHED "Premature end of data in tag"
            else c in
  mk_ctxt (options c') (errNo c') (lastError c') (in_tag c') true
    (consumed c') (encoding c') (sax c') (userData c') (_private c').

Definition parse_chunk (st : libxml_state (list ctxt)) (p : Z)
    (chunk : option (list byte)) (size terminate : Z)
    : libxml_state (list ctxt) * Z :=
  match lookup (heap st) p with
  | None => (st, XML_ERR_INTERNAL_ERROR)
  | Some c =>
      let input :=
        match chunk with
        | Some data => if 0 <? size then firstn (Z.to_nat size) data else []
        | None => []
        end in
      let c1 := if instate_eof c then c else fold_left scan input c in
      let c2 := if terminate =? 0 then c1
                else if instate_eof c1 then c1 else finish c1 in
      (mk_libxml_state (xmlStructuredError st) (xmlStructuredErrorContext st)
         (update (heap st) p c2),
       errNo c2)
  end.

Definition get_options (h : list ctxt) (p : Z) : Z :=
  match lookup h p with Some c => options c | None => -1 end.

Definition get_last_error (h : list ctxt) (p : Z) : option xmlError :=
  match lookup h p with Some c => lastError c | None => None end.

Fixpoint byte_list_eqb (a b : list byte) : bool :=
  match a, b with
  | [], [] => true
  | x :: a', y :: b' => Byte.eqb x y && byte_list_eqb a' b'
  | _, _ => false
  end.

Definition known_encodings : list (string * Z) :=
  [("UTF-8", 1); ("ISO-8859-1", 10); ("ASCII", 22)]%string.

Fixpoint find_encoding (name : list byte) (table : list (string * Z)) : Z :=
  match table with
  | [] => XML_CHAR_ENCODING_ERROR
  | (n, e) :: rest =>
      if byte_list_eqb name (list_byte_of_string n) then e
      else find_encoding name rest
  end.

Definition parse_char_encoding (name : list byte) : Z :=
  find_encoding name known_encodings.

Definition create_push_parser_ctxt (st : libxml_state (list ctxt))
    (sax user_data : Z) (chunk : option (list byte)) (size : Z)
    (filename : option (list byte)) (enc : Z)
    : libxml_state (list ctxt) * Z :=
  let c := mk_ctxt 0 0 None false false 0 enc sax user_data None in
  (mk_libxml_state (xmlStructuredError st) (xmlStructuredErrorContext st)
     (heap st ++ [c]),
   Z.of_nat (List.length (heap st)) + 1).

Definition set_userData (h : list ctxt) (p v : Z) : list ctxt :=
  match lookup h p with
  | Some c =>
      update h p (mk_ctxt (options c) (errNo c) (lastError c) (in_tag c)
                    (instate_eof c) (consumed c) (encoding c) (sax c) v
                    (_private c))
  | None => h
  end.

Definition set__private (h : list ctxt) (p : Z) (v : VALUE) : list ctxt :=
  match lookup h p with
  | Some c =>
      update h p (mk_ctxt (options c) (errNo c) (lastError c) (in_tag c)
                    (instate_eof c) (consumed c) (encoding c) (sax c)
                    (userData c) (Some v))
  | None => h
  end.

Definition lib : LibXml2 := {|
  heap_t := list ctxt;
  htmlParseChunk := parse_chunk;
  xmlCtxtGetOptions := get_options;
  xmlCtxtGetLastError := get_last_error;
  xmlParseCharEncoding := parse_char_encoding;
  htmlCreatePushParserCtxt := create_push_parser_ctxt;
  store_userData := set_userData;
  store__private := set__private
|}.

(** Two sessions: object 0 owns context 1, created with the recover option;
    object 1 owns context 2, without it.  Object 2 was allocated but never
    initialised; object 7 wraps a SAX handler table. *)
Definition fresh (opts : Z) : ctxt :=
  mk_ctxt opts 0 None false false 0 1 0 0 None.

Definition w0 : World lib :=
  mk_World (lib := lib)
    (mk_libxml_state 0 0 [fresh XML_PARSE_RECOVER; fresh 0])
    (fun o => if Nat.eqb o 0 then 1 else if Nat.eqb o 1 then 2
              else if Nat.eqb o 7 then 4096 else NULL)
    [].

Definition recovering : VALUE := RTypedData xml_sax_push_parser_type 0.
Definition strict : VALUE := RTypedData xml_sax_push_parser_type 1.
Definition sax_parser : VALUE := RTypedData xml_sax_parser_type 7.

Definition str (s : string) : VALUE := RString (list_byte_of_string s).

End RefLib.

(** ** Vocabulary of the statements *)

Section Vocabulary.

Context {lib : LibXml2}.

(** The receiver: a push parser object. *)
Definition push_parser (o : nat) : VALUE :=
  RTypedData xml_sax_push_parser_type o.

(** A chunk argument that is nil or a String. *)
Definition chunk_value (data : option (list byte)) : VALUE :=
  match data with Some s => RString s | None => Qnil end.

(** The [size] that reaches the parser for it. *)
Definition chunk_size (data : option (list byte)) : Z :=
  match data with
  | Some s => int_of_long (Z.of_nat (List.length s))
  | None => 0
  end.

Definition terminate_flag (last_chunk : VALUE) : Z :=
  if is_Qtrue last_chunk then 1 else 0.

(** The recover option, as line 33 reads it. *)
Definition recover_set (w : World lib) (ctx : Z) : Prop :=
  Z.land (xmlCtxtGetOptions (heap (xml w)) ctx) XML_PARSE_RECOVER <> 0.

(** What one pass through lines 27 to 31 adds to the trace. *)
Definition write_events (w : World lib) (ctx : Z) (data : option (list byte))
    (size terminate status : Z) : list event :=
  [Ev_save_and_set NULL NULL;
   Ev_htmlParseChunk ctx data size terminate status;
   Ev_restore (xmlStructuredErrorContext (xml w)) (xmlStructuredError (xml w))].

(** An argument that is nil or a String [StringValueCStr] accepts. *)
Definition nil_or_cstring (v : VALUE) : Prop :=
  match v with
  | Qnil => True
  | RString s => has_nul s = false
  | _ => False
  end.

Definition cstr (v : VALUE) : option (list byte) :=
  match v with RString s => Some s | _ => None end.

(** The encoding name is given and libxml2 does not know it. *)
Definition unrecognized (v : VALUE) : bool :=
  match v with
  | RString s => xmlParseCharEncoding s =? XML_CHAR_ENCODING_ERROR
  | _ => false
  end.

(** The encoding handed to [htmlCreatePushParserCtxt]. *)
Definition resolved_encoding (v : VALUE) : Z :=
  match v with
  | RString s => xmlParseCharEncoding s
  | _ => XML_CHAR_ENCODING_NONE
  end.

End Vocabulary.

(** Rewrites a call of [native_write] with its equation [eqn] and names the
    state and status that [htmlParseChunk] returned. *)
Ltac run_write_with eqn st status :=
  rewrite eqn in *;
  match goal with
  | |- context [htmlParseChunk ?a ?b ?c ?d ?e] =>
      destruct (htmlParseChunk a b c d e) as [st status]
  | H : context [htmlParseChunk ?a ?b ?c ?d ?e] |- _ =>
      destruct (htmlParseChunk a b c d e) as [st status]
  end;
  cbn [fst snd xml heap DATA_PTR trace xmlSetStructuredErrorFunc] in *.

(** ** Argument types *)

Section ArgumentTypes.

Context {lib : LibXml2}.

(** The receiver and the chunk have the types [native_write] accepts. *)
Definition well_typed_write (self chunk : VALUE) : bool :=
  match self, chunk with
  | RTypedData xml_sax_push_parser_type _, (Qnil | RString _) => true
  | _, _ => false
  end.

End ArgumentTypes.

(** A libxml2 that cannot allocate: the reference parser, except that
    [htmlCreatePushParserCtxt] returns NULL. *)
Module NoMemory.

Definition lib : LibXml2 := {|
  heap_t := list RefLib.ctxt;
  htmlParseChunk := RefLib.parse_chunk;
  xmlCtxtGetOptions := RefLib.get_options;
  xmlCtxtGetLastError := RefLib.get_last_error;
  xmlParseCharEncoding := RefLib.parse_char_encoding;
  htmlCreatePushParserCtxt := fun st _ _ _ _ _ _ => (st, NULL);
  store_userData := RefLib.set_userData;
  store__private := RefLib.set__private
|}.

Definition w0 : World lib :=
  mk_World (lib := lib) (mk_libxml_state 0 0 [])
    (fun o => if Nat.eqb o 7 then 4096 else NULL) [].

End NoMemory.

(** ** Ruby exceptions out of SAX callbacks

    The embedding above takes [htmlParseChunk] as a call that returns.  The
    real call runs the SAX handlers of the context while it parses, and
    those are Ruby methods: line 85 leaves the Ruby SAX parser object in
    [_private] for them.  A Ruby exception raised in a handler unwinds
    through [htmlParseChunk] and through [native_write], which has no
    [rb_ensure] around the call.  This module embeds lines 11 to 40 once
    more with that exit. *)
Module Unwinding.

Section Binding.

Context {lib : LibXml2}.

(** Modelled from the spec: the SAX handlers are host-language objects the
    wrapped library calls back into for every token (section 9); their code
    is outside this file.  [sax_raises] says, for one call of
    [htmlParseChunk], whether a handler raises during it and what; the state
    of libxml2 is then the one [htmlParseChunk] had reached. *)
Variable sax_raises :
  libxml_state heap_t -> Z -> option (list byte) -> Z -> Z -> option exception.

Local Notation "x <- c ;; k" := (bind c (fun x => k))
  (at level 100, c at next level, right associativity).
Local Notation "c ;;; k" := (bind c (fun _ => k))
  (at level 100, right associativity).

Definition call_htmlParseChunk (ctx : Z) (chunk : option (list byte))
    (size terminate : Z) : M lib Z :=
  fun w =>
    let '(st, status) := htmlParseChunk (xml w) ctx chunk size terminate in
    let w' := mk_World st (DATA_PTR w)
                (trace w ++ [Ev_htmlParseChunk ctx chunk size terminate status]) in
    match sax_raises (xml w) ctx chunk size terminate with
    | Some e => (w', Raise e)
    | None => (w', Return status)
    end.

Definition noko_html4_sax_push_parser__native_write
    (self _chunk _last_chunk : VALUE) : M lib VALUE :=
  ctx <- noko_xml_sax_push_parser_unwrap self ;;
  cs <- (if negb (NIL_P _chunk) then
           chunk <- StringValuePtr _chunk ;;
           ret (Some chunk, int_of_long (RSTRING_LEN _chunk))
         else ret (None, 0)) ;;
  handler_state <- noko__structured_error_func_save_and_set NULL NULL ;;
  status <- call_htmlParseChunk ctx (fst cs) (snd cs)
              (if is_Qtrue _last_chunk then 1 else 0) ;;
  noko__structured_error_func_restore handler_state ;;;
  options <- call_xmlCtxtGetOptions ctx ;;
  if negb (status =? 0) && (Z.land options XML_PARSE_RECOVER =? 0) then
    e <- call_xmlCtxtGetLastError ctx ;;
    noko__error_raise e
  else
    ret self.

End Binding.

(** A document handler whose [start_element] raises: the call is left as
    soon as the chunk opens a tag. *)
Definition raising_start_element {H : Type} (st : libxml_state H) (ctx : Z)
    (chunk : option (list byte)) (size terminate : Z) : option exception :=
  match chunk with
  | Some data =>
      if (0 <? size) && existsb (Byte.eqb "<"%byte) data
      then Some (rb_eRuntimeError "raised in start_element")
      else None
  | None => None
  end.

(** The sessions of the reference parser, entered while a structured error
    handler is installed: function 5 with context 6. *)
Definition installed : World RefLib.lib :=
  mk_World (lib := RefLib.lib)
    (mk_libxml_state 5 6 (heap (xml RefLib.w0))) (DATA_PTR RefLib.w0) [].

End Unwinding.

(** ** Properties of native_write *)

Section NativeWrite.

Context {lib : LibXml2}.

Local Abbreviation native_write := noko_html4_sax_push_parser__native_write.

(** The whole of [native_write] on a push parser and a chunk that is nil or
    a String, in one equation. *)
Lemma native_write_eq (w : World lib) (o : nat) (data : option (list byte))
    (last : VALUE) :
  let ctx := DATA_PTR w o in
  let pr := htmlParseChunk (xmlSetStructuredErrorFunc NULL NULL (xml w)) ctx
              data (chunk_size data) (terminate_flag last) in
  native_write (push_parser o) (chunk_value data) last w =
  (mk_World
     (xmlSetStructuredErrorFunc (xmlStructuredErrorContext (xml w))
        (xmlStructuredError (xml w)) (fst pr))
     (DATA_PTR w)
     (trace w ++
      write_events w ctx data (chunk_size data) (terminate_flag last) (snd pr)),
   if negb (snd pr =? 0) &&
      (Z.land (xmlCtxtGetOptions (heap (fst pr)) ctx) XML_PARSE_RECOVER =? 0)
   then Raise (XML_SyntaxError (xmlCtxtGetLastError (heap (fst pr)) ctx))
   else Return (push_parser o)).
Proof.
  intros ctx pr. subst pr ctx.
  unfold noko_html4_sax_push_parser__native_write, bind,
    noko_xml_sax_push_parser_unwrap, TypedData_Get_Struct, push_parser,
    noko__structured_error_func_save_and_set, call_htmlParseChunk,
    noko__structured_error_func_restore, call_xmlCtxtGetOptions,
    call_xmlCtxtGetLastError, noko__error_raise, rb_raise, ret, write_events,
    terminate_flag.
  destruct data as [s|]; cbn [data_type_eqb chunk_value NIL_P negb
    StringValuePtr ret fst snd chunk_size RSTRING_LEN xml DATA_PTR trace
    user_data handler heap xmlSetStructuredErrorFunc];
  unfold ret;
  match goal with
  | |- context [htmlParseChunk ?a ?b ?c ?d ?e] =>
      destruct (htmlParseChunk a b c d e) as [st status]
  end;
  cbn [fst snd xml DATA_PTR trace heap xmlSetStructuredErrorFunc];
  rewrite <- !app_assoc; cbn [app];
  destruct (negb (status =? 0) && _); reflexivity.
Qed.

(** Every other call stops at a TypeError before anything is touched. *)
Lemma native_write_cases (w : World lib) (self chunk last : VALUE) :
  native_write self chunk last w = (w, Raise rb_eTypeError) \/
  exists o data, self = push_parser o /\ chunk = chunk_value data.
Proof.
  destruct self as [| | |s|ty o|o]; try (left; reflexivity).
  destruct ty; [left; reflexivity|].
  destruct chunk as [| | |s|ty' o'|o'];
    try (left; reflexivity).
  - right. exists o, None. split; reflexivity.
  - right. exists o, (Some s). split; reflexivity.
Qed.

Ltac run_write st status := run_write_with native_write_eq st status.

Lemma recover_bit_eqb (w : World lib) (ctx : Z) :
  recover_set w ctx <->
  (Z.land (xmlCtxtGetOptions (heap (xml w)) ctx) XML_PARSE_RECOVER =? 0) = false.
Proof. unfold recover_set. rewrite Z.eqb_neq. tauto. Qed.

(** C1. With the recover option set on the context, a call
    [native_write(data, true)] returns the receiver for every byte sequence
    [data], after handing it to the parser with the terminate flag set; and
    no call of [native_write], whatever its arguments and whatever status
    the parser reports, raises a parse error. *)
Theorem recover_mode_never_raises_parse_error :
  forall (w : World lib) (o : nat) (data : list byte),
    let self := push_parser o in
    let ctx := DATA_PTR w o in
    let out := native_write self (RString data) Qtrue w in
    recover_set (fst out) ctx ->
    snd out = Return self /\
    (exists status,
        trace (fst out) =
        trace w ++ write_events w ctx (Some data)
                     (int_of_long (Z.of_nat (List.length data))) 1 status) /\
    (forall chunk last e,
        recover_set (fst (native_write self chunk last w)) ctx ->
        snd (native_write self chunk last w) <> Raise (XML_SyntaxError e)).
Proof.
  intros w o data self ctx out Hrec. subst self ctx out.
  change (RString data) with (chunk_value (Some data)) in *.
  split; [|split].
  - apply recover_bit_eqb in Hrec. run_write st status.
    rewrite Hrec, andb_false_r. reflexivity.
  - run_write st status. exists status. reflexivity.
  - clear Hrec. intros chunk last e Hrec.
    destruct (native_write_cases w (push_parser o) chunk last)
      as [Hty | (o' & d & Ho & Hc)].
    + rewrite Hty. discriminate.
    + injection Ho as <-. subst chunk.
      apply recover_bit_eqb in Hrec. run_write st status.
      rewrite Hrec, andb_false_r. discriminate.
Qed.

(** The two exits in the text of [native_write].  Where [htmlParseChunk]
    returns, a call leaves the two globals of the structured error handler
    as it found them, whether it returns or raises the parse error: either
    the call stopped before the parser was reached and did nothing, or its
    trace is exactly save-and-set, then [htmlParseChunk], then a restore of
    the pair that was installed on entry.  For a call left by an exception
    raised inside [htmlParseChunk] see [callback_raise_skips_restore]. *)
Theorem native_write_preserves_error_handler :
  forall (w : World lib) (self chunk last : VALUE),
    let out := native_write self chunk last w in
    xmlStructuredError (xml (fst out)) = xmlStructuredError (xml w) /\
    xmlStructuredErrorContext (xml (fst out)) =
      xmlStructuredErrorContext (xml w) /\
    (fst out = w \/
     exists ctx data size terminate status,
       trace (fst out) =
       trace w ++
       [Ev_save_and_set NULL NULL;
        Ev_htmlParseChunk ctx data size terminate status;
        Ev_restore (xmlStructuredErrorContext (xml w))
          (xmlStructuredError (xml w))]).
Proof.
  intros w self chunk last out. subst out.
  destruct (native_write_cases w self chunk last)
    as [Hty | (o & d & -> & ->)].
  - rewrite Hty. cbn [fst]. auto.
  - run_write st status. repeat split.
    right. exists (DATA_PTR w o), d, (chunk_size d), (terminate_flag last), status.
    reflexivity.
Qed.
Lemma strict_bit_eqb (w : World lib) (ctx : Z) :
  ~ recover_set w ctx <->
  (Z.land (xmlCtxtGetOptions (heap (xml w)) ctx) XML_PARSE_RECOVER =? 0) = true.
Proof. unfold recover_set. rewrite Z.eqb_eq. lia. Qed.

Lemma status_eqb (status : Z) : status <> 0 -> negb (status =? 0) = true.
Proof. intros H. apply Z.eqb_neq in H. rewrite H. reflexivity. Qed.

(** C2, as amended.  Without the recover option, a call whose chunk makes
    the parser report a nonzero status raises a SyntaxError carrying the
    context's last error, after the chunk went through the parser; with
    status 0 it returns the receiver.  The binding keeps no failed state: a
    later call on the same receiver hands its chunk to the parser again. *)
Theorem strict_mode_raises_last_error :
  forall (w : World lib) (o : nat) (data : option (list byte)) (last : VALUE),
    let self := push_parser o in
    let ctx := DATA_PTR w o in
    let out := native_write self (chunk_value data) last w in
    ~ recover_set (fst out) ctx ->
    exists status,
      trace (fst out) =
      trace w ++ write_events w ctx data (chunk_size data)
                   (terminate_flag last) status /\
      (status <> 0 ->
       snd out =
       Raise (XML_SyntaxError (xmlCtxtGetLastError (heap (xml (fst out))) ctx))) /\
      (status = 0 -> snd out = Return self) /\
      (forall data' last', exists status',
          trace (fst (native_write self (chunk_value data') last' (fst out))) =
          trace (fst out) ++
          write_events (fst out) ctx data' (chunk_size data')
            (terminate_flag last') status').
Proof.
  intros w o data last self ctx out Hstrict. subst self ctx out.
  apply strict_bit_eqb in Hstrict.
  assert (Hnext : forall w' data' last', exists status',
             trace (fst (native_write (push_parser o) (chunk_value data') last' w')) =
             trace w' ++ write_events w' (DATA_PTR w' o) data'
                           (chunk_size data') (terminate_flag last') status').
  { intros w' data' last'. run_write st' status'. exists status'. reflexivity. }
  run_write st status. exists status. rewrite Hstrict, andb_true_r.
  repeat split.
  - intros Hs. rewrite (status_eqb _ Hs). reflexivity.
  - intros ->. reflexivity.
  - intros data' last'.
    match goal with |- context [native_write _ _ _ ?w'] =>
      destruct (Hnext w' data' last') as [status' Hs'] end.
    exists status'. exact Hs'.
Qed.

(** C3, as amended.  A failure inside the parser, a decode failure
    included, reaches [native_write] as a nonzero status.  The call raises
    exactly when that status is nonzero and the recover option is not set,
    and then it raises a SyntaxError; with the recover option set it returns
    the receiver. *)
Theorem parser_failure_raised_only_without_recover :
  forall (w : World lib) (o : nat) (data : option (list byte)) (last : VALUE),
    let self := push_parser o in
    let ctx := DATA_PTR w o in
    let out := native_write self (chunk_value data) last w in
    exists status,
      trace (fst out) =
      trace w ++ write_events w ctx data (chunk_size data)
                   (terminate_flag last) status /\
      ((exists e, snd out = Raise e) <->
       (status <> 0 /\ ~ recover_set (fst out) ctx)) /\
      (forall e, snd out = Raise e -> exists err, e = XML_SyntaxError err) /\
      (recover_set (fst out) ctx -> snd out = Return self).
Proof.
  intros w o data last self ctx out. subst self ctx out.
  unfold recover_set. run_write st status. exists status.
  split; [reflexivity|].
  destruct (Z.eqb_spec status 0) as [->|Hs];
    destruct (Z.eqb_spec
                (Z.land (xmlCtxtGetOptions (heap st) (DATA_PTR w o))
                   XML_PARSE_RECOVER) 0) as [Hr|Hr];
    cbn [negb andb].
  - split; [split|split].
    + intros [e He]. discriminate He.
    + intros [H _]. congruence.
    + intros e He. discriminate He.
    + reflexivity.
  - split; [split|split].
    + intros [e He]. discriminate He.
    + intros [H _]. congruence.
    + intros e He. discriminate He.
    + reflexivity.
  - split; [split|split].
    + intros _. split; [exact Hs | intros H; exact (H Hr)].
    + intros _. eexists. reflexivity.
    + intros e He. injection He as <-. eexists. reflexivity.
    + intros H. exfalso. exact (H Hr).
  - split; [split|split].
    + intros [e He]. discriminate He.
    + intros [_ H]. exfalso. exact (H Hr).
    + intros e He. discriminate He.
    + reflexivity.
Qed.

(** C5, as amended.  A call with [last_chunk] true hands the chunk to the
    parser once, with the terminate flag set, and leaves the receiver's
    context pointer alone.  It returns the receiver when the parser reports
    status 0 or the recover option is set, whatever errors have accumulated;
    with a nonzero status and no recover option it raises a SyntaxError. *)
Theorem last_chunk_sets_terminate :
  forall (w : World lib) (o : nat) (data : option (list byte)),
    let self := push_parser o in
    let ctx := DATA_PTR w o in
    let out := native_write self (chunk_value data) Qtrue w in
    exists status,
      trace (fst out) =
      trace w ++ write_events w ctx data (chunk_size data) 1 status /\
      DATA_PTR (fst out) = DATA_PTR w /\
      (status = 0 \/ recover_set (fst out) ctx -> snd out = Return self) /\
      (status <> 0 -> ~ recover_set (fst out) ctx ->
       exists e, snd out = Raise (XML_SyntaxError e)).
Proof.
  intros w o data self ctx out. subst self ctx out.
  unfold recover_set. run_write st status. exists status.
  repeat split.
  - intros [-> | Hr]; [reflexivity|].
    apply Z.eqb_neq in Hr. rewrite Hr, andb_false_r. reflexivity.
  - intros Hs Hr. rewrite (status_eqb _ Hs).
    assert (Hz : (Z.land (xmlCtxtGetOptions (heap st) (DATA_PTR w o))
                    XML_PARSE_RECOVER =? 0) = true) by (apply Z.eqb_eq; lia).
    rewrite Hz. eexists. reflexivity.
Qed.


(** C9, as amended.  A nil chunk reaches the parser as a NULL pointer with
    size 0, with the terminate flag that [last_chunk] asks for; nothing is
    read from nil and no TypeError is raised for it.  The call returns the
    receiver when the parser reports status 0 or the recover option is set,
    and raises a SyntaxError otherwise, as for any other chunk. *)
Theorem nil_chunk_passes_null :
  forall (w : World lib) (o : nat) (last : VALUE),
    let self := push_parser o in
    let ctx := DATA_PTR w o in
    let out := native_write self Qnil last w in
    exists status,
      trace (fst out) =
      trace w ++ write_events w ctx None 0 (terminate_flag last) status /\
      snd out <> Raise rb_eTypeError /\
      (status = 0 \/ recover_set (fst out) ctx -> snd out = Return self) /\
      (status <> 0 -> ~ recover_set (fst out) ctx ->
       exists e, snd out = Raise (XML_SyntaxError e)).
Proof.
  intros w o last self ctx out. subst self ctx out.
  change Qnil with (chunk_value None).
  unfold recover_set. run_write st status. exists status.
  change (chunk_size None) with 0.
  repeat split.
  - destruct (negb (status =? 0) && _); discriminate.
  - intros [-> | Hr]; [reflexivity|].
    apply Z.eqb_neq in Hr. rewrite Hr, andb_false_r. reflexivity.
  - intros Hs Hr. rewrite (status_eqb _ Hs).
    assert (Hz : (Z.land (xmlCtxtGetOptions (heap st) (DATA_PTR w o))
                    XML_PARSE_RECOVER =? 0) = true) by (apply Z.eqb_eq; lia).
    rewrite Hz. eexists. reflexivity.
Qed.
(** The size that reaches the parser is the String's length narrowed to
    [int]. *)
Lemma native_write_size (w : World lib) (o : nat) (s : list byte)
    (last : VALUE) (n : Z) :
  int_of_long (Z.of_nat (List.length s)) = n ->
  exists status,
    trace (fst (native_write (push_parser o) (RString s) last w)) =
    trace w ++ write_events w (DATA_PTR w o) (Some s) n
                 (terminate_flag last) status.
Proof.
  intros Hn. change (RString s) with (chunk_value (Some s)).
  run_write st status. exists status.
  unfold chunk_size. rewrite Hn. reflexivity.
Qed.

Lemma repeat_succ (x : byte) (n : Z) :
  0 <= n -> repeat x (Z.to_nat (Z.succ n)) = [x] ++ repeat x (Z.to_nat n).
Proof.
  intros Hn. rewrite Z2Nat.inj_succ by exact Hn. reflexivity.
Qed.

Lemma repeat_size (x : byte) (n : Z) :
  0 <= n -> Z.of_nat (List.length (repeat x (Z.to_nat n))) = n.
Proof.
  intros Hn. rewrite repeat_length. apply Z2Nat.id. exact Hn.
Qed.

(** C7, the code at its failing input.  For a chunk of 2^31 bytes the
    narrowing [(int)RSTRING_LEN(_chunk)] hands the parser the size
    -2147483648, whereas the same bytes fed as a first byte and the remaining
    2^31 - 1 bytes reach the parser with their true sizes 1 and
    2147483647. *)
Theorem long_chunk_size_is_truncated :
  forall (w : World lib) (o : nat) (last : VALUE) (x : byte),
    let self := push_parser o in
    let whole := repeat x (Z.to_nat 2147483648) in
    let head := [x] in
    let rest := repeat x (Z.to_nat 2147483647) in
    whole = head ++ rest /\
    (exists status,
        trace (fst (native_write self (RString whole) last w)) =
        trace w ++ write_events w (DATA_PTR w o) (Some whole) (-2147483648)
                     (terminate_flag last) status) /\
    (exists status,
        trace (fst (native_write self (RString head) Qfalse w)) =
        trace w ++ write_events w (DATA_PTR w o) (Some head) 1 0 status) /\
    (forall w' : World lib, exists status,
        trace (fst (native_write self (RString rest) last w')) =
        trace w' ++ write_events w' (DATA_PTR w' o) (Some rest) 2147483647
                      (terminate_flag last) status).
Proof.
  intros w o last x self whole head rest. subst self whole head rest.
  split; [|split; [|split]].
  - change 2147483648 with (Z.succ 2147483647).
    apply repeat_succ. discriminate.
  - apply native_write_size. rewrite repeat_size by discriminate. reflexivity.
  - apply (native_write_size w o [x] Qfalse 1). reflexivity.
  - intros w'. apply native_write_size.
    rewrite repeat_size by discriminate. reflexivity.
Qed.

End NativeWrite.

(** ** Properties of initialize_native *)

Section InitializeNative.

Context {lib : LibXml2}.

Local Abbreviation initialize_native :=
  noko_html4_sax_push_parser__initialize_native.

(** C4. Given a SAX parser object and a usable filename, [initialize_native]
    with an encoding name that libxml2 does not recognise raises
    ArgumentError "Unsupported Encoding" and leaves the world untouched:
    [htmlCreatePushParserCtxt] was not called, so no context was created,
    and the receiver's DATA_PTR is as before.  With nil or a recognised name it does not raise
    that error; it goes on to create the context, with the encoding the name
    resolved to (none for nil). *)
Theorem unsupported_encoding_fails_before_creation :
  forall (w : World lib) (self : VALUE) (so : nat) (filename encoding : VALUE),
    nil_or_cstring filename ->
    nil_or_cstring encoding ->
    let out := initialize_native self (RTypedData xml_sax_parser_type so)
                 filename encoding w in
    if unrecognized encoding then
      snd out = Raise (rb_eArgError "Unsupported Encoding") /\ fst out = w
    else
      snd out <> Raise (rb_eArgError "Unsupported Encoding") /\
      exists ctx,
        trace (fst out) =
        trace w ++ [Ev_htmlCreatePushParserCtxt (DATA_PTR w so)
                      (cstr filename) (resolved_encoding encoding) ctx].
Proof.
  intros w self so filename encoding Hf He out. subst out.
  unfold noko_html4_sax_push_parser__initialize_native, bind,
    noko_xml_sax_parser_unwrap, TypedData_Get_Struct,
    call_htmlCreatePushParserCtxt, update_heap, set_DATA_PTR, rb_raise, ret.
  cbn [data_type_eqb].
  assert (Hfn : forall w0 : World lib,
             (if negb (NIL_P filename)
              then fun w1 : World lib =>
                     match StringValueCStr filename w1 with
                     | (w', Return a) => (w', Return (Some a))
                     | (w', Raise e) => (w', Raise e)
                     end
              else fun w1 : World lib => (w1, Return None)) w0 =
             (w0, Return (cstr filename))).
  { intros w0. destruct filename; try contradiction; cbn in *.
    - reflexivity.
    - unfold StringValueCStr. rewrite Hf. reflexivity. }
  rewrite Hfn. clear Hfn.
  destruct encoding as [| | |s|ty o|o]; try contradiction;
    cbn [NIL_P negb unrecognized resolved_encoding].
  - destruct (htmlCreatePushParserCtxt _ _ _ _ _ _ _) as [st ctx].
    cbn [fst snd xml DATA_PTR trace heap].
    split.
    + destruct (ctx =? NULL); [discriminate|].
      destruct self; discriminate.
    + exists ctx. destruct (ctx =? NULL); [reflexivity|].
      destruct self; reflexivity.
  - unfold StringValueCStr. cbn in He. rewrite He. unfold ret.
    destruct (xmlParseCharEncoding s =? XML_CHAR_ENCODING_ERROR).
    + split; reflexivity.
    + destruct (htmlCreatePushParserCtxt _ _ _ _ _ _ _) as [st ctx].
      cbn [fst snd xml DATA_PTR trace heap].
      split.
      * destruct (ctx =? NULL); [discriminate|].
        destruct self; discriminate.
      * exists ctx. destruct (ctx =? NULL); [reflexivity|].
        destruct self; reflexivity.
Qed.

End InitializeNative.

(** ** The binding run on the reference parser *)

Section Sessions.

Import RefLib.

Local Abbreviation native_write :=
  (noko_html4_sax_push_parser__native_write (lib := RefLib.lib)).
Local Abbreviation initialize_native :=
  (noko_html4_sax_push_parser__initialize_native (lib := RefLib.lib)).

(** C1, witness.  A recovering session fed malformed markup as its last
    chunk. *)
Lemma recover_mode_never_raises_parse_error_witness :
  let out := native_write recovering (str "<p>unclosed<<") Qtrue w0 in
  recover_set (fst out) 1 /\ snd out = Return recovering.
Proof.
  assert (H : recover_set
                (fst (native_write recovering (str "<p>unclosed<<") Qtrue w0)) 1).
  { vm_compute. discriminate. }
  split.
  - exact H.
  - exact (proj1 (recover_mode_never_raises_parse_error w0 0%nat
                    (list_byte_of_string "<p>unclosed<<") H)).
Defined.

(** C2, counterexample.  A strict session is fed "<<": the parser reports
    error 68 and the call raises.  The next call on the same receiver does
    not fail for the state of the session: its chunk "<p>" goes through
    [htmlParseChunk] like any other. *)
Lemma failed_session_is_parsed_again :
  let out1 := native_write strict (str "<<") Qfalse w0 in
  let out2 := native_write strict (str "<p>") Qfalse (fst out1) in
  ~ recover_set (fst out1) 2 /\
  snd out1 =
    Raise (XML_SyntaxError
             (Some (mk_xmlError 68 "htmlParseStartTag: invalid element name" 1))) /\
  trace (fst out2) =
    trace (fst out1) ++
    [Ev_save_and_set 0 0;
     Ev_htmlParseChunk 2 (Some (list_byte_of_string "<p>")) 3 0 68;
     Ev_restore 0 0].
Proof.
  split; [|split].
  - vm_compute. intros H. apply H. reflexivity.
  - vm_compute. reflexivity.
  - vm_compute. reflexivity.
Qed.

(** C2, witness.  The strict session fed "<<". *)
Lemma strict_mode_raises_last_error_witness :
  let out := native_write strict (str "<<") Qfalse w0 in
  ~ recover_set (fst out) 2 /\
  snd out = Raise (XML_SyntaxError (get_last_error (heap (xml (fst out))) 2)).
Proof.
  assert (H : ~ recover_set (fst (native_write strict (str "<<") Qfalse w0)) 2).
  { vm_compute. intros H. apply H. reflexivity. }
  split.
  - exact H.
  - destruct (strict_mode_raises_last_error w0 1%nat
                (Some (list_byte_of_string "<<")) Qfalse H)
      as (status & Htrace & Hraise & _).
    apply Hraise. intros ->. vm_compute in Htrace. discriminate Htrace.
Defined.

(** C3, counterexample.  A recovering session is fed the byte FF, which
    cannot be decoded: the parser reports XML_ERR_INVALID_ENCODING and
    [native_write] returns the receiver. *)
Lemma decode_failure_returns_in_recover_mode :
  let out := native_write recovering (RString [xff]) Qfalse w0 in
  trace (fst out) =
    [Ev_save_and_set 0 0;
     Ev_htmlParseChunk 1 (Some [xff]) 1 0 XML_ERR_INVALID_ENCODING;
     Ev_restore 0 0] /\
  snd out = Return recovering.
Proof. split; vm_compute; reflexivity. Qed.

(** C5, counterexample.  A strict session has taken "<b>" without error; its
    last chunk "<i" ends inside a tag, the parser reports error 77 at the end
    of the document and the call raises instead of returning. *)
Lemma last_chunk_raises_in_strict_mode :
  let out1 := native_write strict (str "<b>") Qfalse w0 in
  let out2 := native_write strict (str "<i") Qtrue (fst out1) in
  snd out1 = Return strict /\
  snd out2 =
    Raise (XML_SyntaxError
             (Some (mk_xmlError 77 "Premature end of data in tag" 5))).
Proof. split; vm_compute; reflexivity. Qed.

(** The reference parser leaves libxml2's state alone on an empty chunk
    that is not the last one, for every context and every state. *)
Lemma replace_nth_same (h : list ctxt) :
  forall (n : nat) (c : ctxt), nth_error h n = Some c -> replace_nth h n c = h.
Proof.
  induction h as [|x h IH]; intros [|n] c H; cbn in *;
    try discriminate; try reflexivity.
  - injection H as <-. reflexivity.
  - rewrite (IH n c H). reflexivity.
Qed.

Lemma reference_parser_ignores_empty_chunk
    (st : libxml_state (list ctxt)) (p : Z) :
  fst (parse_chunk st p (Some []) 0 0) = st.
Proof.
  unfold parse_chunk. destruct (lookup (heap st) p) as [c|] eqn:Hl.
  - cbn [Z.ltb Z.compare fold_left Z.eqb fst].
    assert (Hu : update (heap st) p (if instate_eof c then c else c) = heap st).
    { destruct (instate_eof c); unfold update; unfold lookup in Hl;
        destruct (p <=? 0); try reflexivity;
        apply replace_nth_same; exact Hl. }
    rewrite Hu. destruct st. reflexivity.
  - reflexivity.
Qed.

Lemma reference_parser_empty_status (st : libxml_state (list ctxt)) (p : Z)
    (c : ctxt) :
  lookup (heap st) p = Some c ->
  snd (parse_chunk st p (Some []) 0 0) = errNo c.
Proof.
  intros Hl. unfold parse_chunk. rewrite Hl.
  cbn [Z.ltb Z.compare fold_left Z.eqb snd].
  destruct (instate_eof c); reflexivity.
Qed.

(** On the reference parser this covers every live session: whenever the
    receiver's context carries no error or has the recover option, an empty
    chunk that is not the last returns the receiver and leaves what libxml2
    owns and every DATA_PTR as they were. *)
Lemma reference_session_empty_chunk (w : World RefLib.lib) (o : nat)
    (last : VALUE) (c : ctxt) :
  is_Qtrue last = false ->
  lookup (heap (xml w)) (DATA_PTR w o) = Some c ->
  errNo c = 0 \/ Z.land (options c) XML_PARSE_RECOVER <> 0 ->
  let out := native_write (push_parser o) (RString []) last w in
  snd out = Return (push_parser o) /\
  xml (fst out) = xml w /\
  DATA_PTR (fst out) = DATA_PTR w.
Proof.
  intros Hlast Hl Hlive out. subst out.
  change (RString []) with (chunk_value (Some [])).
  rewrite native_write_eq. unfold terminate_flag. rewrite Hlast.
  change (chunk_size (Some [])) with 0.
  cbn [htmlParseChunk xmlCtxtGetOptions RefLib.lib].
  rewrite reference_parser_ignores_empty_chunk.
  rewrite (reference_parser_empty_status _ _ c)
    by (cbn [heap xmlSetStructuredErrorFunc]; exact Hl).
  cbn [fst snd xml heap DATA_PTR xmlSetStructuredErrorFunc].
  unfold get_options. rewrite Hl. repeat split.
  - destruct Hlive as [-> | Hr]; [reflexivity|].
    apply Z.eqb_neq in Hr. rewrite Hr, andb_false_r. reflexivity.
  - destruct (xml w). reflexivity.
Qed.


(** C9, counterexample.  A strict session has taken "<p" without error; the
    closing call [native_write(nil, true)] ends the document inside the tag,
    the parser reports error 77 and the call raises. *)
Lemma nil_last_chunk_raises_in_strict_mode :
  let out1 := native_write strict (str "<p") Qfalse w0 in
  let out2 := native_write strict Qnil Qtrue (fst out1) in
  snd out1 = Return strict /\
  trace (fst out2) =
    trace (fst out1) ++
    [Ev_save_and_set 0 0; Ev_htmlParseChunk 2 None 0 1 77; Ev_restore 0 0] /\
  snd out2 =
    Raise (XML_SyntaxError
             (Some (mk_xmlError 77 "Premature end of data in tag" 2))).
Proof. split; [|split]; vm_compute; reflexivity. Qed.

(** A document without errors, from creation to the last chunk: the context
    is created with the encoding "UTF-8" resolved to, the receiver's DATA_PTR
    points to it, and the single call hands over the nine bytes with the
    terminate flag. *)
Example clean_document :
  let self := push_parser 2 in
  let out0 := initialize_native self sax_parser Qnil (str "UTF-8") w0 in
  let out1 := native_write self (str "<p>hi</p>") Qtrue (fst out0) in
  snd out0 = Return self /\
  DATA_PTR (fst out0) 2 = 3 /\
  snd out1 = Return self /\
  trace (fst out1) =
    [Ev_htmlCreatePushParserCtxt 4096 None 1 3;
     Ev_save_and_set 0 0;
     Ev_htmlParseChunk 3 (Some (list_byte_of_string "<p>hi</p>")) 9 1 0;
     Ev_restore 0 0].
Proof. repeat split; vm_compute; reflexivity. Qed.

(** C4, witness.  Creation with the encoding name "bogus-enc". *)
Lemma unsupported_encoding_fails_before_creation_witness :
  let out := initialize_native (push_parser 2) sax_parser Qnil
               (str "bogus-enc") w0 in
  nil_or_cstring Qnil /\ nil_or_cstring (str "bogus-enc") /\
  snd out = Raise (rb_eArgError "Unsupported Encoding") /\ fst out = w0.
Proof.
  assert (Hf : nil_or_cstring Qnil) by exact I.
  assert (He : nil_or_cstring (str "bogus-enc")) by reflexivity.
  split; [exact Hf|]. split; [exact He|].
  exact (unsupported_encoding_fails_before_creation w0 (push_parser 2) 7%nat
           Qnil (str "bogus-enc") Hf He).
Defined.

(** *** What the narrowed size does to a parser that honours it *)

Lemma scan_consumed (c : ctxt) (b : byte) :
  consumed (scan c b) = consumed c + 1.
Proof.
  destruct b; cbn [scan]; try reflexivity;
    destruct (in_tag c); reflexivity.
Qed.

Lemma fold_scan_consumed (l : list byte) :
  forall c, consumed (fold_left scan l c) = consumed c + Z.of_nat (List.length l).
Proof.
  induction l as [|b l IH]; intros c.
  - cbn. lia.
  - cbn [fold_left List.length]. rewrite IH, scan_consumed. lia.
Qed.

Lemma nth_error_replace_nth (h : list ctxt) :
  forall (n : nat) (c c' : ctxt),
    nth_error h n = Some c -> nth_error (replace_nth h n c') n = Some c'.
Proof.
  induction h as [|x h IH]; intros [|n] c c' H; cbn in *;
    try discriminate; try reflexivity.
  exact (IH n c c' H).
Qed.

Lemma lookup_update (h : list ctxt) (p : Z) (c c' : ctxt) :
  lookup h p = Some c -> lookup (update h p c') p = Some c'.
Proof.
  unfold lookup, update. destruct (p <=? 0); [discriminate|].
  apply nth_error_replace_nth.
Qed.

Lemma int_of_long_small (n : Z) : 0 <= n < 2 ^ 31 -> int_of_long n = n.
Proof.
  intros H. unfold int_of_long. rewrite Z.mod_small; lia.
Qed.

(** A non-final chunk of fewer than 2^31 bytes is scanned to its end. *)
Lemma reference_parser_consumes (w : World RefLib.lib) (o : nat) (p : Z)
    (c : ctxt) (l : list byte) (n : Z) :
  DATA_PTR w o = p ->
  lookup (heap (xml w)) p = Some c ->
  instate_eof c = false ->
  Z.of_nat (List.length l) = n ->
  0 < n < 2 ^ 31 ->
  option_map consumed
    (lookup (heap (xml (fst (native_write (push_parser o) (RString l) Qfalse w))))
       p) = Some (consumed c + n).
Proof.
  intros Hp Hl He Hn Hr.
  change (RString l) with (chunk_value (Some l)).
  rewrite native_write_eq. unfold chunk_size. rewrite Hn, Hp.
  rewrite int_of_long_small by lia.
  cbn [fst snd xml heap xmlSetStructuredErrorFunc htmlParseChunk RefLib.lib
         terminate_flag is_Qtrue].
  unfold parse_chunk, xmlSetStructuredErrorFunc. cbn [heap]. rewrite Hl, He.
  assert (Hpos : (0 <? n) = true) by (apply Z.ltb_lt; lia).
  rewrite Hpos.
  assert (Hlen : Z.to_nat n = List.length l) by lia.
  rewrite Hlen, firstn_all. cbn [Z.eqb fst heap].
  rewrite (lookup_update _ _ c _ Hl). cbn [option_map].
  rewrite fold_scan_consumed, Hn. reflexivity.
Qed.

(** A chunk that reaches the parser with a size that is not positive is
    skipped. *)
Lemma reference_parser_skips (w : World RefLib.lib) (o : nat) (p : Z)
    (c : ctxt) (l : list byte) (n : Z) :
  DATA_PTR w o = p ->
  lookup (heap (xml w)) p = Some c ->
  int_of_long (Z.of_nat (List.length l)) = n ->
  n <= 0 ->
  option_map consumed
    (lookup (heap (xml (fst (native_write (push_parser o) (RString l) Qfalse w))))
       p) = Some (consumed c).
Proof.
  intros Hp Hl Hn Hr.
  change (RString l) with (chunk_value (Some l)).
  rewrite native_write_eq. unfold chunk_size. rewrite Hn, Hp.
  cbn [fst snd xml heap xmlSetStructuredErrorFunc htmlParseChunk RefLib.lib
         terminate_flag is_Qtrue].
  unfold parse_chunk, xmlSetStructuredErrorFunc. cbn [heap]. rewrite Hl.
  assert (Hneg : (0 <? n) = false) by (apply Z.ltb_ge; lia).
  rewrite Hneg. cbn [fold_left Z.eqb fst heap].
  destruct (instate_eof c);
    rewrite (lookup_update _ _ c _ Hl); reflexivity.
Qed.

(** The failing input of C7 on the reference parser, which like libxml2
    skips a chunk whose size is not positive: the 2^31 bytes fed in one call
    are dropped, fed as one byte and then the rest they are all consumed. *)
Lemma long_chunk_is_dropped :
  let whole := repeat "a"%byte (Z.to_nat 2147483648) in
  let rest := repeat "a"%byte (Z.to_nat 2147483647) in
  let one := native_write recovering (RString whole) Qfalse w0 in
  let two := native_write recovering (RString rest) Qfalse
               (fst (native_write recovering (RString ["a"%byte]) Qfalse w0)) in
  option_map consumed (lookup (heap (xml (fst one))) 1) = Some 0 /\
  option_map consumed (lookup (heap (xml (fst two))) 1) = Some 2147483648.
Proof.
  intros whole rest.
  assert (Hwhole : Z.of_nat (List.length whole) = 2147483648)
    by (apply repeat_size; discriminate).
  assert (Hrest : Z.of_nat (List.length rest) = 2147483647)
    by (apply repeat_size; discriminate).
  clearbody whole rest. intros one two. subst one two. split.
  - apply (reference_parser_skips w0 0 1 (fresh XML_PARSE_RECOVER) whole
             (-2147483648)).
    + reflexivity.
    + reflexivity.
    + rewrite Hwhole. reflexivity.
    + discriminate.
  - set (w1 := fst (native_write recovering (RString ["a"%byte]) Qfalse w0)).
    apply (reference_parser_consumes w1 0 1
             (mk_ctxt 1 0 None false false 1 1 0 0 None) rest 2147483647).
    + vm_compute. reflexivity.
    + vm_compute. reflexivity.
    + reflexivity.
    + exact Hrest.
    + split; reflexivity.
Qed.

End Sessions.

(** ** Further properties of native_write *)

Section NativeWriteMore.

Context {lib : LibXml2}.

Local Abbreviation native_write := noko_html4_sax_push_parser__native_write.

Lemma well_typed_write_inv (self chunk : VALUE) :
  well_typed_write self chunk = true ->
  exists o data, self = push_parser o /\ chunk = chunk_value data.
Proof.
  destruct self as [| | |s|[|] o|o]; try discriminate;
    destruct chunk as [| | |s|ty' o'|o']; try discriminate; intros _.
  - exists o, None. split; reflexivity.
  - exists o, (Some s). split; reflexivity.
Qed.

Lemma ill_typed_write (w : World lib) (self chunk last : VALUE) :
  well_typed_write self chunk = false ->
  native_write self chunk last w = (w, Raise rb_eTypeError).
Proof.
  destruct self as [| | |s|[|] o|o]; try reflexivity;
    destruct chunk as [| | |s|ty' o'|o']; try reflexivity; discriminate.
Qed.

(** X2. Only the value [true] ends the document: with any other
    [last_chunk], a truthy one such as a String included, the call is the
    call with [false]. *)
Theorem only_true_terminates :
  forall (w : World lib) (self chunk last : VALUE),
    is_Qtrue last = false ->
    native_write self chunk last w = native_write self chunk Qfalse w.
Proof.
  intros w self chunk last Hlast.
  destruct (well_typed_write self chunk) eqn:Hwt.
  - destruct (well_typed_write_inv _ _ Hwt) as (o & data & -> & ->).
    rewrite !native_write_eq. unfold terminate_flag. rewrite Hlast.
    reflexivity.
  - rewrite !(ill_typed_write w self chunk _ Hwt). reflexivity.
Qed.

Lemma int_of_long_range (n : Z) :
  - 2 ^ 31 <= int_of_long n < 2 ^ 31 /\ (int_of_long n - n) mod 2 ^ 32 = 0.
Proof.
  unfold int_of_long.
  pose proof (Z.mod_pos_bound (n + 2 ^ 31) (2 ^ 32) ltac:(lia)) as Hb.
  split; [lia|].
  rewrite (Z.mod_eq (n + 2 ^ 31) (2 ^ 32)) by lia.
  replace (n + 2 ^ 31 - 2 ^ 32 * ((n + 2 ^ 31) / 2 ^ 32) - 2 ^ 31 - n)
    with (- ((n + 2 ^ 31) / 2 ^ 32) * 2 ^ 32) by lia.
  apply Z.mod_mul. lia.
Qed.

(** X3. The size handed to the parser for a String chunk always fits an
    [int] and differs from the String's length by a multiple of 2^32; for a
    String shorter than 2^31 bytes it is the length. *)
Theorem chunk_size_is_length_below_2_31 :
  forall (w : World lib) (o : nat) (s : list byte) (last : VALUE),
    let len := Z.of_nat (List.length s) in
    exists size status,
      trace (fst (native_write (push_parser o) (RString s) last w)) =
      trace w ++ write_events w (DATA_PTR w o) (Some s) size
                   (terminate_flag last) status /\
      - 2 ^ 31 <= size < 2 ^ 31 /\
      (size - len) mod 2 ^ 32 = 0 /\
      (len < 2 ^ 31 -> size = len).
Proof.
  intros w o s last len. subst len.
  change (RString s) with (chunk_value (Some s)).
  rewrite native_write_eq.
  destruct (htmlParseChunk _ _ _ _ _) as [st status]. cbn [fst snd trace].
  exists (int_of_long (Z.of_nat (List.length s))), status.
  destruct (int_of_long_range (Z.of_nat (List.length s))) as [Hr Hm].
  repeat split; try lia; try exact Hm.
  intros Hlt. unfold int_of_long. rewrite Z.mod_small; lia.
Qed.

(** X4. What [native_write] returns or raises, and what it leaves in
    libxml2's memory, do not depend on the structured error handler that is
    installed when it is called: the parser always runs with the handler
    cleared. *)
Theorem outcome_independent_of_installed_handler :
  forall (w1 w2 : World lib) (self chunk last : VALUE),
    heap (xml w1) = heap (xml w2) ->
    (forall o, DATA_PTR w1 o = DATA_PTR w2 o) ->
    let out1 := native_write self chunk last w1 in
    let out2 := native_write self chunk last w2 in
    snd out1 = snd out2 /\
    heap (xml (fst out1)) = heap (xml (fst out2)).
Proof.
  intros w1 w2 self chunk last Hheap Hptr out1 out2. subst out1 out2.
  destruct (well_typed_write self chunk) eqn:Hwt.
  - destruct (well_typed_write_inv _ _ Hwt) as (o & data & -> & ->).
    rewrite !native_write_eq.
    assert (Hst : xmlSetStructuredErrorFunc NULL NULL (xml w1) =
                  xmlSetStructuredErrorFunc NULL NULL (xml w2)).
    { unfold xmlSetStructuredErrorFunc. rewrite Hheap. reflexivity. }
    rewrite Hst, (Hptr o).
    destruct (htmlParseChunk _ _ _ _ _) as [st status].
    cbn [fst snd xml heap xmlSetStructuredErrorFunc]. split; reflexivity.
  - rewrite !(ill_typed_write _ self chunk last Hwt). cbn [fst snd].
    split; [reflexivity | exact Hheap].
Qed.

End NativeWriteMore.

(** ** Further properties of initialize_native *)

Section InitializeNativeMore.

Context {lib : LibXml2}.

Local Abbreviation initialize_native :=
  noko_html4_sax_push_parser__initialize_native.
Local Abbreviation native_write := noko_html4_sax_push_parser__native_write.

(** The shared end of the calls of [initialize_native] that reach line 72:
    the context is NULL, or it is written to and bound. *)
Ltac created so :=
  right; cbn [cstr resolved_encoding];
  let st := fresh "st" in
  let ctx := fresh "ctx" in
  let Hc := fresh "Hc" in
  let Hn := fresh "Hn" in
  destruct (htmlCreatePushParserCtxt _ _ _ _ _ _ _) as [st ctx] eqn:Hc;
  exists so, st, ctx;
  split; [reflexivity|]; split; [first [exact I | assumption]|];
  split; [exact Hc|]; cbv zeta;
  cbn [fst snd xml DATA_PTR trace heap xmlStructuredError
         xmlStructuredErrorContext];
  destruct (Z.eqb_spec ctx NULL) as [->|Hn];
  [ left; repeat split
  | right; split; [exact Hn|]; unfold set_DATA_PTR;
    match goal with |- context [match ?v with Qnil => _ | _ => _ end] =>
      destruct v end; split; reflexivity ].

(** The three ways [initialize_native] ends: an argument is refused and
    nothing has happened; the context could not be created; the context was
    created, written to and bound to the receiver. *)
Lemma initialize_native_outcome (w : World lib)
    (self _xml_sax _filename encoding : VALUE) :
  let out := initialize_native self _xml_sax _filename encoding w in
  (fst out = w /\
   (snd out = Raise rb_eTypeError \/
    snd out = Raise (rb_eArgError "string contains null byte") \/
    snd out = Raise (rb_eArgError "Unsupported Encoding"))) \/
  (exists so st ctx,
      _xml_sax = RTypedData xml_sax_parser_type so /\
      nil_or_cstring _filename /\
      htmlCreatePushParserCtxt (xml w) (DATA_PTR w so) NULL None 0
        (cstr _filename) (resolved_encoding encoding) = (st, ctx) /\
      let w1 := mk_World st (DATA_PTR w)
                  (trace w ++
                   [Ev_htmlCreatePushParserCtxt (DATA_PTR w so)
                      (cstr _filename) (resolved_encoding encoding) ctx]) in
      ((ctx = NULL /\ fst out = w1 /\
        snd out = Raise (rb_eRuntimeError "Could not create a parser context"))
       \/
       (ctx <> NULL /\ snd out = Return self /\
        fst out =
        fst (set_DATA_PTR self ctx
               (mk_World
                  (mk_libxml_state (xmlStructuredError st)
                     (xmlStructuredErrorContext st)
                     (store__private (store_userData (heap st) ctx ctx)
                        ctx _xml_sax))
                  (DATA_PTR w) (trace w1)))))).
Proof.
  intros out. subst out.
  unfold noko_html4_sax_push_parser__initialize_native, bind,
    noko_xml_sax_parser_unwrap, TypedData_Get_Struct,
    call_htmlCreatePushParserCtxt, update_heap, rb_raise, ret.
  unfold StringValueCStr, rb_raise, ret.
  destruct _xml_sax as [| | |xs|[|] so|xo];
    try (left; split; [reflexivity | left; reflexivity]).
  cbn [data_type_eqb].
  destruct _filename as [| | |f|fty fo|fo]; cbn [NIL_P negb];
    try (left; split; [reflexivity | left; reflexivity]).
  - destruct encoding as [| | |s|ety eo|eo]; cbn [NIL_P negb];
      try (left; split; [reflexivity | left; reflexivity]).
    + created so.
    + destruct (has_nul s).
      * left. split; [reflexivity | right; left; reflexivity].
      * destruct (xmlParseCharEncoding s =? XML_CHAR_ENCODING_ERROR).
        { left. split; [reflexivity | right; right; reflexivity]. }
        created so.
  - destruct (has_nul f) eqn:Hf.
    { left. split; [reflexivity | right; left; reflexivity]. }
    change (nil_or_cstring (RString f)) in Hf.
    destruct encoding as [| | |s|ety eo|eo]; cbn [NIL_P negb];
      try (left; split; [reflexivity | left; reflexivity]).
    + created so.
    + destruct (has_nul s).
      * left. split; [reflexivity | right; left; reflexivity].
      * destruct (xmlParseCharEncoding s =? XML_CHAR_ENCODING_ERROR).
        { left. split; [reflexivity | right; right; reflexivity]. }
        created so.
Qed.

(** X7. A call of [initialize_native] that returns, returns its receiver
    and has done exactly this: created one context, not NULL, stored the
    context itself as its userData and the SAX parser object as its _private,
    and bound it to the receiver's DATA_PTR; no other object's DATA_PTR
    changed. *)
Theorem initialize_native_binds_context :
  forall (w : World lib) (ty : data_type) (o : nat)
         (_xml_sax _filename encoding v : VALUE),
    let self := RTypedData ty o in
    let out := initialize_native self _xml_sax _filename encoding w in
    snd out = Return v ->
    v = self /\
    exists sax fn enc st ctx,
      ctx <> NULL /\
      htmlCreatePushParserCtxt (xml w) sax NULL None 0 fn enc = (st, ctx) /\
      trace (fst out) =
        trace w ++ [Ev_htmlCreatePushParserCtxt sax fn enc ctx] /\
      DATA_PTR (fst out) o = ctx /\
      (forall o', o' <> o -> DATA_PTR (fst out) o' = DATA_PTR w o') /\
      heap (xml (fst out)) =
        store__private (store_userData (heap st) ctx ctx) ctx _xml_sax.
Proof.
  intros w ty o _xml_sax _filename encoding v self out Hret.
  subst self out.
  destruct (initialize_native_outcome w (RTypedData ty o) _xml_sax _filename
              encoding)
    as [[_ [H | [H | H]]] | (so & st & ctx & -> & _ & Hc & [(_ & _ & H) | (Hn & H & Hw)])];
    try (rewrite H in Hret; discriminate Hret).
  rewrite H in Hret. injection Hret as <-. split; [reflexivity|].
  exists (DATA_PTR w so), (cstr _filename), (resolved_encoding encoding), st, ctx.
  rewrite Hw. cbn [set_DATA_PTR fst xml DATA_PTR trace heap].
  repeat split; try assumption.
  - rewrite Nat.eqb_refl. reflexivity.
  - intros o' Ho. apply Nat.eqb_neq in Ho. rewrite Ho. reflexivity.
Qed.

(** X8. [initialize_native] raises a RuntimeError only when
    [htmlCreatePushParserCtxt] was called and returned NULL; the message is
    "Could not create a parser context", libxml2's state is the one that call
    left, and no DATA_PTR was written: the receiver stays unbound. *)
Theorem creation_failure_leaves_receiver_unbound :
  forall (w : World lib) (self _xml_sax _filename encoding : VALUE)
         (msg : string),
    let out := initialize_native self _xml_sax _filename encoding w in
    snd out = Raise (rb_eRuntimeError msg) ->
    msg = "Could not create a parser context"%string /\
    DATA_PTR (fst out) = DATA_PTR w /\
    exists sax fn enc,
      htmlCreatePushParserCtxt (xml w) sax NULL None 0 fn enc =
        (xml (fst out), NULL) /\
      trace (fst out) =
        trace w ++ [Ev_htmlCreatePushParserCtxt sax fn enc NULL].
Proof.
  intros w self _xml_sax _filename encoding msg out Hret. subst out.
  destruct (initialize_native_outcome w self _xml_sax _filename encoding)
    as [[_ [H | [H | H]]] | (so & st & ctx & -> & _ & Hc & [(-> & Hw & H) | (Hn & H & Hw)])];
    try (rewrite H in Hret; discriminate Hret).
  rewrite H in Hret. injection Hret as <-. rewrite Hw.
  cbn [xml DATA_PTR trace]. repeat split.
  exists (DATA_PTR w so), (cstr _filename), (resolved_encoding encoding).
  split; [exact Hc | reflexivity].
Qed.

(** X9. A call of [initialize_native] that raises a TypeError or an
    ArgumentError (an argument of the wrong type, an embedded NUL, an
    unsupported encoding) has changed nothing: [htmlCreatePushParserCtxt]
    was not called, so no context exists, what libxml2 owns is as before and
    no DATA_PTR was written.  (Before "Unsupported Encoding" the name was
    looked up with [xmlParseCharEncoding], which changes nothing.) *)
Theorem argument_errors_change_nothing :
  forall (w : World lib) (self _xml_sax _filename encoding : VALUE),
    let out := initialize_native self _xml_sax _filename encoding w in
    (snd out = Raise rb_eTypeError \/
     exists msg, snd out = Raise (rb_eArgError msg)) ->
    fst out = w.
Proof.
  intros w self _xml_sax _filename encoding out Hret. subst out.
  destruct (initialize_native_outcome w self _xml_sax _filename encoding)
    as [[Hw _] | (so & st & ctx & _ & _ & _ & [(_ & _ & H) | (_ & H & _)])].
  - exact Hw.
  - rewrite H in Hret. destruct Hret as [Hr | [msg Hr]]; discriminate Hr.
  - rewrite H in Hret. destruct Hret as [Hr | [msg Hr]]; discriminate Hr.
Qed.



End InitializeNativeMore.

(** ** The further properties on the reference parser *)

Section MoreSessions.

Import RefLib.

Local Abbreviation native_write :=
  (noko_html4_sax_push_parser__native_write (lib := RefLib.lib)).
Local Abbreviation initialize_native :=
  (noko_html4_sax_push_parser__initialize_native (lib := RefLib.lib)).

(** X2, witness.  The String "true" for [last_chunk]. *)
Lemma only_true_terminates_witness :
  is_Qtrue (str "true") = false /\
  native_write strict (str "<p") (str "true") w0 =
  native_write strict (str "<p") Qfalse w0.
Proof.
  split.
  - reflexivity.
  - exact (only_true_terminates w0 strict (str "<p") (str "true") eq_refl).
Defined.

(** X4, witness.  The same session entered with no handler installed and
    with the pair (5, 6) installed. *)
Lemma outcome_independent_of_installed_handler_witness :
  let w1 := mk_World (lib := RefLib.lib)
              (mk_libxml_state 5 6 (heap (xml w0))) (DATA_PTR w0) [] in
  heap (xml w0) = heap (xml w1) /\
  (forall o, DATA_PTR w0 o = DATA_PTR w1 o) /\
  snd (native_write strict (str "<<") Qtrue w0) =
  snd (native_write strict (str "<<") Qtrue w1).
Proof.
  intros w1.
  assert (Hh : heap (xml w0) = heap (xml w1)) by reflexivity.
  assert (Hp : forall o, DATA_PTR w0 o = DATA_PTR w1 o)
    by (intros o; reflexivity).
  split; [exact Hh|]. split; [exact Hp|].
  exact (proj1 (outcome_independent_of_installed_handler w0 w1 strict
                  (str "<<") Qtrue Hh Hp)).
Defined.

(** X7, witness.  Object 2 initialised with the encoding "UTF-8". *)
Lemma initialize_native_binds_context_witness :
  let out := initialize_native (push_parser 2) sax_parser Qnil (str "UTF-8") w0 in
  snd out = Return (push_parser 2) /\
  exists ctx, ctx <> NULL /\ DATA_PTR (fst out) 2 = ctx.
Proof.
  intros out.
  assert (H : snd out = Return (push_parser 2)) by (vm_compute; reflexivity).
  split; [exact H|].
  destruct (initialize_native_binds_context w0 xml_sax_push_parser_type 2
              sax_parser Qnil (str "UTF-8") (push_parser 2) H)
    as (_ & sax & fn & enc & st & ctx & Hn & _ & _ & Hptr & _).
  exists ctx. split; [exact Hn | exact Hptr].
Defined.

(** X8, witness.  The same call against a libxml2 that cannot allocate. *)
Lemma creation_failure_leaves_receiver_unbound_witness :
  let out := noko_html4_sax_push_parser__initialize_native
               (lib := NoMemory.lib) (push_parser 2) sax_parser Qnil
               (str "UTF-8") NoMemory.w0 in
  snd out = Raise (rb_eRuntimeError "Could not create a parser context") /\
  DATA_PTR (fst out) = DATA_PTR NoMemory.w0.
Proof.
  intros out.
  assert (H : snd out =
              Raise (rb_eRuntimeError "Could not create a parser context"))
    by (vm_compute; reflexivity).
  split; [exact H|].
  exact (proj1 (proj2 (creation_failure_leaves_receiver_unbound
                         (lib := NoMemory.lib) NoMemory.w0 (push_parser 2)
                         sax_parser Qnil (str "UTF-8") _ H))).
Defined.

(** X9, witness.  An encoding argument that is not a String. *)
Lemma argument_errors_change_nothing_witness :
  let out := initialize_native (push_parser 2) sax_parser Qnil Qtrue w0 in
  (snd out = Raise rb_eTypeError \/
   exists msg, snd out = Raise (rb_eArgError msg)) /\
  fst out = w0.
Proof.
  intros out.
  assert (H : snd out = Raise rb_eTypeError \/
              exists msg, snd out = Raise (rb_eArgError msg))
    by (left; reflexivity).
  split; [exact H|].
  exact (argument_errors_change_nothing w0 (push_parser 2) sax_parser Qnil
           Qtrue H).
Defined.



End MoreSessions.

(** ** native_write left by a Ruby exception *)

Section UnwindingProperties.

Context {lib : LibXml2}.

(** While no SAX handler raises, the two embeddings of lines 11 to 40 are
    the same function. *)
Lemma native_write_without_unwinding
    (sax_raises : libxml_state heap_t -> Z -> option (list byte) -> Z -> Z ->
                  option exception)
    (w : World lib) (self chunk last : VALUE) :
  (forall st ctx c n t, sax_raises st ctx c n t = None) ->
  Unwinding.noko_html4_sax_push_parser__native_write sax_raises self chunk
    last w =
  noko_html4_sax_push_parser__native_write self chunk last w.
Proof.
  intros Hnone.
  unfold Unwinding.noko_html4_sax_push_parser__native_write,
    noko_html4_sax_push_parser__native_write, bind,
    Unwinding.call_htmlParseChunk, call_htmlParseChunk,
    noko_xml_sax_push_parser_unwrap, TypedData_Get_Struct,
    noko__structured_error_func_save_and_set, StringValuePtr, ret.
  destruct self as [| | |s|[|] o|o]; try reflexivity;
    destruct chunk as [| | |s|ty' o'|o']; try reflexivity;
    cbn [data_type_eqb NIL_P negb fst snd xml DATA_PTR trace];
    rewrite Hnone; reflexivity.
Qed.

(** C10, the code at its failing input.  When a SAX handler raises during
    [htmlParseChunk], the call of [native_write] is left by that exception
    after line 29: its trace ends with the parser call, line 31 is not
    reached, and libxml2's state, the handler globals included, stays what
    the parser call made of the state that save-and-set had cleared. *)
Theorem callback_raise_skips_restore :
  forall (sax_raises : libxml_state heap_t -> Z -> option (list byte) -> Z ->
                       Z -> option exception)
         (w : World lib) (o : nat) (data : option (list byte)) (last : VALUE)
         (e : exception),
    let ctx := DATA_PTR w o in
    let cleared := xmlSetStructuredErrorFunc NULL NULL (xml w) in
    let parsed := htmlParseChunk cleared ctx data (chunk_size data)
                    (terminate_flag last) in
    let out := Unwinding.noko_html4_sax_push_parser__native_write sax_raises
                 (push_parser o) (chunk_value data) last w in
    sax_raises cleared ctx data (chunk_size data) (terminate_flag last) =
      Some e ->
    snd out = Raise e /\
    trace (fst out) =
      trace w ++
      [Ev_save_and_set NULL NULL;
       Ev_htmlParseChunk ctx data (chunk_size data) (terminate_flag last)
         (snd parsed)] /\
    xml (fst out) = fst parsed.
Proof.
  intros sax_raises w o data last e ctx cleared parsed out Hraise.
  subst ctx cleared parsed out.
  unfold Unwinding.noko_html4_sax_push_parser__native_write, bind,
    noko_xml_sax_push_parser_unwrap, TypedData_Get_Struct, push_parser,
    noko__structured_error_func_save_and_set, Unwinding.call_htmlParseChunk,
    ret, terminate_flag in *.
  destruct data as [s|];
    cbn [data_type_eqb chunk_value NIL_P negb StringValuePtr ret fst snd
           chunk_size RSTRING_LEN xml DATA_PTR trace] in *;
    unfold ret; cbn [fst snd xml DATA_PTR trace];
    rewrite Hraise;
    destruct (htmlParseChunk _ _ _ _ _) as [st status];
    cbn [fst snd xml trace]; rewrite <- app_assoc; repeat split.
Qed.

End UnwindingProperties.

(** C10, witness.  The strict session of the reference parser is entered
    with handler 5 and context 6 installed and fed "<p>" while the document
    handler's [start_element] raises: the RuntimeError leaves the call, no
    restore is made and both globals are left NULL. *)
Lemma callback_raise_skips_restore_witness :
  let w := Unwinding.installed in
  let cleared := xmlSetStructuredErrorFunc NULL NULL (xml w) in
  let data := Some (list_byte_of_string "<p>") in
  let out := Unwinding.noko_html4_sax_push_parser__native_write
               (lib := RefLib.lib) Unwinding.raising_start_element
               RefLib.strict (RString (list_byte_of_string "<p>")) Qfalse w in
  Unwinding.raising_start_element cleared 2 data 3 0 =
    Some (rb_eRuntimeError "raised in start_element") /\
  xmlStructuredError (xml w) = 5 /\
  xmlStructuredErrorContext (xml w) = 6 /\
  snd out = Raise (rb_eRuntimeError "raised in start_element") /\
  trace (fst out) =
    [Ev_save_and_set 0 0;
     Ev_htmlParseChunk 2 (Some (list_byte_of_string "<p>")) 3 0 0] /\
  xmlStructuredError (xml (fst out)) = 0 /\
  xmlStructuredErrorContext (xml (fst out)) = 0.
Proof.
  intros w cleared data out.
  assert (H : Unwinding.raising_start_element cleared 2 data 3 0 =
              Some (rb_eRuntimeError "raised in start_element"))
    by reflexivity.
  destruct (callback_raise_skips_restore (lib := RefLib.lib)
              Unwinding.raising_start_element w 1 data Qfalse _ H)
    as (Hres & Htrace & Hxml).
  split; [exact H|]. split; [reflexivity|]. split; [reflexivity|].
  split; [exact Hres|]. split.
  - etransitivity; [exact Htrace|]. vm_compute. reflexivity.
  - split.
    + etransitivity; [exact (f_equal xmlStructuredError Hxml)|].
      vm_compute. reflexivity.
    + etransitivity; [exact (f_equal xmlStructuredErrorContext Hxml)|].
      vm_compute. reflexivity.
Defined.
